(** * ai_worker.py: the Ollama prompt dispatcher

    A shallow embedding of [Resources/ai_worker.py] and the properties of
    its two functions, [ollama_chat] and [main].

    Modelling choices, all read off the source:
    - a Python [str] is a list of Unicode code points;
    - [sys.stdout] and [sys.stderr] are text buffers; what an invocation
      wrote is the content of the buffer when it ends.  [sys.stdout]
      encodes strictly: a write of a text with a character its codec
      cannot encode raises [UnicodeEncodeError] and writes nothing.  The
      codec is a parameter of the development.  [sys.stderr] escapes
      what it cannot encode and accepts every text;
    - [ollama.chat] is an external function.  It is a parameter of the
      development: given a request and the state of the service it either
      returns a response or raises, and leaves the service in a new state;
    - Python exceptions propagate through sequencing and are caught by
      [try ... except Exception], which lets [BaseException]s that are not
      [Exception]s through.  [str(e)] of an exception either returns a
      text or raises in its turn;
    - every call of [ollama.chat] is recorded, with its outcome, in a ghost
      log, so that "performs no backend call" and "the prompt submitted"
      can be stated. *)

From Stdlib Require Import Ascii String List NArith Bool Arith Lia.
Import ListNotations.

(** ** Python strings *)

Definition codepoint := N.
Definition pystr := list codepoint.

(** A source literal (all of them are ASCII) as a Python string. *)
Definition lit (s : string) : pystr :=
  List.map N_of_ascii (list_ascii_of_string s).

(** The escape [\n]. *)
Definition nl : pystr := [10%N].

(** [==] on [str]. *)
Fixpoint str_eq (a b : pystr) : bool :=
  match a, b with
  | [], [] => true
  | x :: a', y :: b' => N.eqb x y && str_eq a' b'
  | _, _ => false
  end.

(** [sep.join(items)]. *)
Fixpoint join (sep : pystr) (items : list pystr) : pystr :=
  match items with
  | [] => []
  | x :: rest =>
      match rest with
      | [] => x
      | _ :: _ => x ++ sep ++ join sep rest
      end
  end.

(** ASCII lowercasing of one character: [A]..[Z] go to [a]..[z], every
    other character is unchanged. *)
Definition Py_TOLOWER (c : codepoint) : codepoint :=
  if (N.leb 65 c && N.leb c 90)%bool then (c + 32)%N else c.

Section Lower.

(** The lowercase mapping of a non-ASCII character, which [str.lower]
    takes from the interpreter's Unicode database.  It yields one to
    three characters and may look at the position of the character in
    the string (capital sigma).  It is not part of this program. *)
Variable unicode_lower : pystr -> nat -> codepoint -> pystr.

Definition lower_char (s : pystr) (i : nat) (c : codepoint) : pystr :=
  if N.ltb c 128 then [Py_TOLOWER c] else unicode_lower s i c.

Fixpoint lower_from (s : pystr) (i : nat) (rest : pystr) : pystr :=
  match rest with
  | [] => []
  | c :: rest' => lower_char s i c ++ lower_from s (S i) rest'
  end.

(** [s.lower()]. *)
Definition lower (s : pystr) : pystr := lower_from s 0 s.

End Lower.

(** ** The backend interface *)

(** One entry of [messages]: the dict [{"role": ..., "content": ...}]. *)
Record message := mk_message {
  role : pystr;
  content : pystr
}.

(** The keyword arguments of [chat(model=..., messages=...)]. *)
Record request := mk_request {
  model : pystr;
  messages : list message
}.

(** A raised exception, by its class and by what [str()] does on it.
    [PyException] is an instance of [Exception]; [PyBaseException] is a
    [BaseException] outside [Exception] ([KeyboardInterrupt],
    [SystemExit]).  [str(e)] returns a text ([Str]) or, when the
    [__str__] of the class fails, raises another exception
    ([StrRaises]). *)
Inductive exn :=
| PyException (s : str_result)
| PyBaseException (s : str_result)
with str_result :=
| Str (msg : pystr)
| StrRaises (e : exn).

Definition str_of (e : exn) : str_result :=
  match e with
  | PyException s => s
  | PyBaseException s => s
  end.

(** What a call of [chat] does: it returns a [ChatResponse], of which the
    program reads [response.message.content] only, or it raises. *)
Inductive outcome :=
| Returns (message_content : pystr)
| Raises (e : exn).

(** ** Stand-ins for the environment, for concrete runs *)

(** A Unicode table that leaves every non-ASCII character as it is. *)
Definition unicode_lower_id : pystr -> nat -> codepoint -> pystr :=
  fun _ _ c => [c].

(** Standard output in UTF-8: everything but the surrogates
    [U+D800]..[U+DFFF] can be encoded. *)
Definition codec_utf8 (c : codepoint) : bool :=
  negb (N.leb 55296 c && N.leb c 57343).

(** The text of the [UnicodeEncodeError] of UTF-8 on the one text the
    runs below have it refuse, a lone [U+D800]. *)
Definition codec_utf8_error (s : pystr) : pystr :=
  lit "'utf-8' codec can't encode character '\ud800' in position 0: "
    ++ lit "surrogates not allowed".

(** Standard output in ASCII. *)
Definition codec_ascii (c : codepoint) : bool := N.ltb c 128.

(** The text of the [UnicodeEncodeError] of ASCII on the one text the
    runs below have it refuse, a lone e-acute. *)
Definition codec_ascii_error (s : pystr) : pystr :=
  lit "'ascii' codec can't encode character '\xe9' in position 0: "
    ++ lit "ordinal not in range(128)".

(** A service that answers ["4"] to every request. *)
Definition chat_four (req : request) (b : unit) : outcome * unit :=
  (Returns (lit "4"), b).

(** A service that answers [c] to every request. *)
Definition chat_says (c : pystr) (req : request) (b : unit)
  : outcome * unit :=
  (Returns c, b).

(** A service that cannot be reached. *)
Definition chat_refused (req : request) (b : unit) : outcome * unit :=
  (Raises (PyException (Str (lit "connection refused"))), b).

(** The user interrupts the call. *)
Definition chat_interrupted (req : request) (b : unit) : outcome * unit :=
  (Raises (PyBaseException (Str [])), b).

(** A call that raises an [Exception] whose [__str__] raises
    [ValueError("bad")]. *)
Definition chat_unprintable (req : request) (b : unit) : outcome * unit :=
  (Raises (PyException (StrRaises (PyException (Str (lit "bad"))))), b).

(** A service that counts the requests it has served and echoes the
    content of the first message. *)
Definition chat_echo (req : request) (served : nat) : outcome * nat :=
  (Returns (match messages req with
            | [] => []
            | m :: _ => content m
            end),
   S served).

(** A service whose answer depends on how many requests it has served. *)
Definition chat_moody (req : request) (served : nat) : outcome * nat :=
  (Returns (if Nat.even served then lit "yes" else lit "no"), S served).

(** ** Process state and effects *)

Section Program.

Variable unicode_lower : pystr -> nat -> codepoint -> pystr.

(** The codec of [sys.stdout]: the characters it can encode, and the
    text of the [UnicodeEncodeError] it raises on a text it cannot. *)
Variable stdout_codec : codepoint -> bool.
Variable stdout_codec_error : pystr -> pystr.

(** The chat service: [ollama.chat] with the state of the service made
    explicit. *)
Variable backend_state : Type.
Variable chat : request -> backend_state -> outcome * backend_state.

Record world := mk_world {
  stdout : pystr;
  stderr : pystr;
  calls : list (request * outcome);
  backend : backend_state
}.

Inductive result (A : Type) :=
| Normal (a : A)
| Propagated (e : exn).
Arguments Normal {A} a.
Arguments Propagated {A} e.

Definition M (A : Type) := world -> result A * world.

Definition ret {A} (a : A) : M A := fun w => (Normal a, w).

Definition bind {A B} (m : M A) (k : A -> M B) : M B :=
  fun w =>
    match m w with
    | (Normal a, w') => k a w'
    | (Propagated e, w') => (Propagated e, w')
    end.

Definition raise {A} (e : exn) : M A := fun w => (Propagated e, w).

Notation "x <- m ;; k" := (bind m (fun x => k))
  (at level 61, m at next level, right associativity).
Notation "m ;; k" := (bind m (fun _ => k))
  (at level 61, right associativity).

(** [try: body  except Exception as e: handler e]. *)
Definition try_except_Exception {A} (body : M A) (handler : exn -> M A)
  : M A :=
  fun w =>
    match body w with
    | (Normal a, w') => (Normal a, w')
    | (Propagated (PyException s), w') => handler (PyException s) w'
    | (Propagated (PyBaseException s), w') =>
        (Propagated (PyBaseException s), w')
    end.

(** [str(e)]. *)
Definition str (e : exn) : M pystr :=
  match str_of e with
  | Str msg => ret msg
  | StrRaises e' => raise e'
  end.

(** The line feed is encodable under every codec of a text stream; any
    other character is for the codec to say. *)
Definition stdout_encodable (c : codepoint) : bool :=
  N.eqb c 10 || stdout_codec c.

Definition stdout_accepts (s : pystr) : bool :=
  forallb stdout_encodable s.

(** [sys.stdout.write(s)]: the text is encoded as a whole before any of
    it is written. *)
Definition stdout_write (s : pystr) : M unit :=
  fun w =>
    if stdout_accepts s then
      (Normal tt, mk_world (stdout w ++ s) (stderr w) (calls w) (backend w))
    else
      (Propagated (PyException (Str (stdout_codec_error s))), w).

(** [sys.stderr.write(s)]. *)
Definition stderr_write (s : pystr) : M unit :=
  fun w => (Normal tt,
            mk_world (stdout w) (stderr w ++ s) (calls w) (backend w)).

(** [print(s)] for a string [s]: the text, then the line end. *)
Definition print (s : pystr) : M unit :=
  stdout_write s ;; stdout_write nl.

(** The call [chat(model=..., messages=...)], logged with its outcome. *)
Definition call_chat (req : request) : M pystr :=
  fun w =>
    let (o, b') := chat req (backend w) in
    let w' := mk_world (stdout w) (stderr w) (calls w ++ [(req, o)]) b' in
    match o with
    | Returns c => (Normal c, w')
    | Raises e => (Propagated e, w')
    end.

(** [l[i]], which raises [IndexError] out of range. *)
Definition getitem (l : list pystr) (i : nat) : M pystr :=
  match nth_error l i with
  | Some x => ret x
  | None => raise (PyException (Str (lit "list index out of range")))
  end.

(** ** The program *)

(** The default value of the parameter [model] of [ollama_chat]. *)
Definition default_model : pystr := lit "deepseek-r1:1.5b".

Definition ollama_chat (prompt_text : pystr) (model : pystr) : M unit :=
  try_except_Exception
    (response_message_content <-
       call_chat (mk_request model
                    [mk_message (lit "user") prompt_text]) ;;
     print response_message_content)
    (fun e =>
       str_e <- str e ;;
       stderr_write (lit "Error in ollama_chat: " ++ str_e ++ nl)).

(** [main], with [sys.argv] as its argument. *)
Definition main (argv : list pystr) : M unit :=
  if Nat.ltb (length argv) 3 then
    stderr_write (lit "Usage: ai_worker.py ollama <prompt_text>" ++ nl)
  else
    arg1 <- getitem argv 1 ;;
    let command := lower unicode_lower arg1 in
    if str_eq command (lit "ollama") then
      let prompt_text := join (lit " ") (skipn 2 argv) in
      ollama_chat prompt_text default_model
    else
      stderr_write
        (lit "Unknown command. Use: ai_worker.py ollama <prompt_text>" ++ nl).

(** A fresh process: nothing written yet, no call made, the service in
    state [b]. *)
Definition initial_world (b : backend_state) : world :=
  mk_world [] [] [] b.

(** One invocation of the script with [sys.argv = argv]. *)
Definition run (argv : list pystr) (b : backend_state) : result unit * world :=
  main argv (initial_world b).

(** The invocation submitted [prompt] under [model_id], in one request
    of one message with role ["user"], and made no other call. *)
Definition takes_chat_path (argv : list pystr) (b : backend_state)
    (prompt model_id : pystr) : Prop :=
  exists o,
    calls (snd (run argv b)) =
      [(mk_request model_id [mk_message (lit "user") prompt], o)].

(** The service answers by the request alone, whatever its state. *)
Definition deterministic : Prop :=
  forall req b1 b2, fst (chat req b1) = fst (chat req b2).

(** The sentence "whenever the first argument lowercases to [ollama],
    the chat path is taken", over all argument lists. *)
Definition dispatch_on_every_argument_list : Prop :=
  forall prog cmd1 cmd2 rest b,
    lower unicode_lower cmd1 = lit "ollama" ->
    lower unicode_lower cmd2 = lit "ollama" ->
    exists prompt model_id,
      takes_chat_path (prog :: cmd1 :: rest) b prompt model_id /\
      takes_chat_path (prog :: cmd2 :: rest) b prompt model_id.

(** The sentence "whenever the first argument lowercases to [ollama] and
    the call returns content [c], standard output is [c] and a newline
    and standard error is empty", over all replies. *)
Definition every_reply_is_printed : Prop :=
  forall prog cmd rest b req c,
    lower unicode_lower cmd = lit "ollama" ->
    In (req, Returns c) (calls (snd (run (prog :: cmd :: rest) b))) ->
    stdout (snd (run (prog :: cmd :: rest) b)) = c ++ nl /\
    stderr (snd (run (prog :: cmd :: rest) b)) = [].

(** The result of [ollama_chat], its two streams, its log and the state
    of the service, by the outcome [o] of the call made from [w]. *)
Definition after_call (prompt_text model_id : pystr) (w : world)
    (o : outcome) (b' : backend_state) : result unit * world :=
  let log :=
    calls w ++
      [(mk_request model_id [mk_message (lit "user") prompt_text], o)] in
  match o with
  | Returns c =>
      if stdout_accepts c then
        (Normal tt, mk_world (stdout w ++ c ++ nl) (stderr w) log b')
      else
        (Normal tt,
         mk_world (stdout w)
           (stderr w ++
              lit "Error in ollama_chat: " ++ stdout_codec_error c ++ nl)
           log b')
  | Raises (PyException (Str m)) =>
      (Normal tt,
       mk_world (stdout w)
         (stderr w ++ lit "Error in ollama_chat: " ++ m ++ nl) log b')
  | Raises (PyException (StrRaises e)) =>
      (Propagated e, mk_world (stdout w) (stderr w) log b')
  | Raises (PyBaseException s) =>
      (Propagated (PyBaseException s),
       mk_world (stdout w) (stderr w) log b')
  end.

(** The ways an invocation can go. *)
Inductive run_spec (argv : list pystr) (b : backend_state)
  : result unit * world -> Prop :=
| run_usage :
    length argv < 3 ->
    run_spec argv b
      (Normal tt,
       mk_world [] (lit "Usage: ai_worker.py ollama <prompt_text>" ++ nl)
         [] b)
| run_unknown prog cmd a rest :
    argv = prog :: cmd :: a :: rest ->
    lower unicode_lower cmd <> lit "ollama" ->
    run_spec argv b
      (Normal tt,
       mk_world []
         (lit "Unknown command. Use: ai_worker.py ollama <prompt_text>"
            ++ nl)
         [] b)
| run_reply prog cmd a rest req c b' :
    argv = prog :: cmd :: a :: rest ->
    lower unicode_lower cmd = lit "ollama" ->
    req = mk_request default_model
            [mk_message (lit "user") (join (lit " ") (a :: rest))] ->
    chat req b = (Returns c, b') ->
    stdout_accepts c = true ->
    run_spec argv b
      (Normal tt, mk_world (c ++ nl) [] [(req, Returns c)] b')
| run_reply_refused prog cmd a rest req c b' :
    argv = prog :: cmd :: a :: rest ->
    lower unicode_lower cmd = lit "ollama" ->
    req = mk_request default_model
            [mk_message (lit "user") (join (lit " ") (a :: rest))] ->
    chat req b = (Returns c, b') ->
    stdout_accepts c = false ->
    run_spec argv b
      (Normal tt,
       mk_world []
         (lit "Error in ollama_chat: " ++ stdout_codec_error c ++ nl)
         [(req, Returns c)] b')
| run_error prog cmd a rest req m b' :
    argv = prog :: cmd :: a :: rest ->
    lower unicode_lower cmd = lit "ollama" ->
    req = mk_request default_model
            [mk_message (lit "user") (join (lit " ") (a :: rest))] ->
    chat req b = (Raises (PyException (Str m)), b') ->
    run_spec argv b
      (Normal tt,
       mk_world [] (lit "Error in ollama_chat: " ++ m ++ nl)
         [(req, Raises (PyException (Str m)))] b')
| run_error_unprintable prog cmd a rest req e b' :
    argv = prog :: cmd :: a :: rest ->
    lower unicode_lower cmd = lit "ollama" ->
    req = mk_request default_model
            [mk_message (lit "user") (join (lit " ") (a :: rest))] ->
    chat req b = (Raises (PyException (StrRaises e)), b') ->
    run_spec argv b
      (Propagated e,
       mk_world [] [] [(req, Raises (PyException (StrRaises e)))] b')
| run_escapes prog cmd a rest req s b' :
    argv = prog :: cmd :: a :: rest ->
    lower unicode_lower cmd = lit "ollama" ->
    req = mk_request default_model
            [mk_message (lit "user") (join (lit " ") (a :: rest))] ->
    chat req b = (Raises (PyBaseException s), b') ->
    run_spec argv b
      (Propagated (PyBaseException s),
       mk_world [] [] [(req, Raises (PyBaseException s))] b').

(** ** Strings *)

Lemma str_eq_true_iff (a b : pystr) : str_eq a b = true <-> a = b.
Proof.
  revert b; induction a as [|x a IH]; intros [|y b]; simpl;
    try (split; [discriminate | discriminate]); [tauto|].
  rewrite andb_true_iff, N.eqb_eq, IH.
  split; [intros [-> ->]; reflexivity | intros [= -> ->]; auto].
Qed.

Lemma str_eq_false_iff (a b : pystr) : str_eq a b = false <-> a <> b.
Proof.
  rewrite <- str_eq_true_iff. destruct (str_eq a b); split; congruence.
Qed.

Lemma join_cons (sep x : pystr) (rest : list pystr) :
  join sep (x :: rest) = x ++ flat_map (fun y => sep ++ y) rest.
Proof.
  revert x; induction rest as [|y rest IH]; intros x; simpl.
  - now rewrite app_nil_r.
  - change (x ++ sep ++ join sep (y :: rest) =
            x ++ (sep ++ y) ++ flat_map (fun y0 => sep ++ y0) rest).
    now rewrite IH, <- app_assoc.
Qed.

(** ASCII letters lowercase without consulting the Unicode table. *)
Lemma lower_OLLAMA : lower unicode_lower (lit "OLLAMA") = lit "ollama".
Proof. reflexivity. Qed.

Lemma lower_Ollama : lower unicode_lower (lit "Ollama") = lit "ollama".
Proof. reflexivity. Qed.

Lemma lower_ollama : lower unicode_lower (lit "ollama") = lit "ollama".
Proof. reflexivity. Qed.

(** ** Writing to standard output *)

Lemma stdout_accepts_nl : stdout_accepts nl = true.
Proof. reflexivity. Qed.

Lemma print_accepted (c : pystr) w :
  stdout_accepts c = true ->
  print c w =
    (Normal tt,
     mk_world (stdout w ++ c ++ nl) (stderr w) (calls w) (backend w)).
Proof.
  intros A. unfold print, bind, stdout_write.
  rewrite A, stdout_accepts_nl. cbn. now rewrite <- app_assoc.
Qed.

Lemma print_refused (c : pystr) w :
  stdout_accepts c = false ->
  print c w = (Propagated (PyException (Str (stdout_codec_error c))), w).
Proof.
  intros A. unfold print, bind, stdout_write. now rewrite A.
Qed.

(** ** The chat operation, by outcome of the call *)

Lemma ollama_chat_Returns prompt_text model_id w c b' :
  chat (mk_request model_id [mk_message (lit "user") prompt_text])
       (backend w) = (Returns c, b') ->
  stdout_accepts c = true ->
  ollama_chat prompt_text model_id w =
    (Normal tt,
     mk_world (stdout w ++ c ++ nl) (stderr w)
       (calls w ++
          [(mk_request model_id [mk_message (lit "user") prompt_text],
            Returns c)])
       b').
Proof.
  intros E A. unfold ollama_chat, try_except_Exception, bind, call_chat.
  rewrite E. now rewrite print_accepted by exact A.
Qed.

Lemma ollama_chat_Returns_refused prompt_text model_id w c b' :
  chat (mk_request model_id [mk_message (lit "user") prompt_text])
       (backend w) = (Returns c, b') ->
  stdout_accepts c = false ->
  ollama_chat prompt_text model_id w =
    (Normal tt,
     mk_world (stdout w)
       (stderr w ++
          lit "Error in ollama_chat: " ++ stdout_codec_error c ++ nl)
       (calls w ++
          [(mk_request model_id [mk_message (lit "user") prompt_text],
            Returns c)])
       b').
Proof.
  intros E A. unfold ollama_chat, try_except_Exception, bind, call_chat.
  rewrite E. now rewrite print_refused by exact A.
Qed.

Lemma ollama_chat_Raises_Exception prompt_text model_id w m b' :
  chat (mk_request model_id [mk_message (lit "user") prompt_text])
       (backend w) = (Raises (PyException (Str m)), b') ->
  ollama_chat prompt_text model_id w =
    (Normal tt,
     mk_world (stdout w)
       (stderr w ++ lit "Error in ollama_chat: " ++ m ++ nl)
       (calls w ++
          [(mk_request model_id [mk_message (lit "user") prompt_text],
            Raises (PyException (Str m)))])
       b').
Proof.
  intros E. unfold ollama_chat, try_except_Exception, bind, call_chat.
  rewrite E. reflexivity.
Qed.

Lemma ollama_chat_Raises_unprintable prompt_text model_id w e b' :
  chat (mk_request model_id [mk_message (lit "user") prompt_text])
       (backend w) = (Raises (PyException (StrRaises e)), b') ->
  ollama_chat prompt_text model_id w =
    (Propagated e,
     mk_world (stdout w) (stderr w)
       (calls w ++
          [(mk_request model_id [mk_message (lit "user") prompt_text],
            Raises (PyException (StrRaises e)))])
       b').
Proof.
  intros E. unfold ollama_chat, try_except_Exception, bind, call_chat.
  rewrite E. reflexivity.
Qed.

Lemma ollama_chat_Raises_BaseException prompt_text model_id w s b' :
  chat (mk_request model_id [mk_message (lit "user") prompt_text])
       (backend w) = (Raises (PyBaseException s), b') ->
  ollama_chat prompt_text model_id w =
    (Propagated (PyBaseException s),
     mk_world (stdout w) (stderr w)
       (calls w ++
          [(mk_request model_id [mk_message (lit "user") prompt_text],
            Raises (PyBaseException s))])
       b').
Proof.
  intros E. unfold ollama_chat, try_except_Exception, bind, call_chat.
  rewrite E. reflexivity.
Qed.

Lemma ollama_chat_after_call prompt_text model_id w :
  ollama_chat prompt_text model_id w =
    after_call prompt_text model_id w
      (fst (chat (mk_request model_id
                    [mk_message (lit "user") prompt_text]) (backend w)))
      (snd (chat (mk_request model_id
                    [mk_message (lit "user") prompt_text]) (backend w))).
Proof.
  destruct (chat (mk_request model_id
                    [mk_message (lit "user") prompt_text]) (backend w))
    as [[c | [[m | e] | s]] b'] eqn:E; cbn [fst snd after_call].
  - destruct (stdout_accepts c) eqn:A.
    + now apply ollama_chat_Returns.
    + now apply ollama_chat_Returns_refused.
  - now apply ollama_chat_Raises_Exception.
  - now apply ollama_chat_Raises_unprintable.
  - now apply ollama_chat_Raises_BaseException.
Qed.

(** ** [main], by branch *)

Lemma main_too_few argv w :
  length argv < 3 ->
  main argv w =
    stderr_write (lit "Usage: ai_worker.py ollama <prompt_text>" ++ nl) w.
Proof.
  intros H. unfold main.
  now apply Nat.ltb_lt in H; rewrite H.
Qed.

Lemma main_dispatch prog cmd a rest w :
  main (prog :: cmd :: a :: rest) w =
    if str_eq (lower unicode_lower cmd) (lit "ollama") then
      ollama_chat (join (lit " ") (a :: rest)) default_model w
    else
      stderr_write
        (lit "Unknown command. Use: ai_worker.py ollama <prompt_text>"
           ++ nl) w.
Proof.
  unfold main, bind, getitem, ret; cbn [length nth_error Nat.ltb Nat.leb].
  now destruct (str_eq (lower unicode_lower cmd) (lit "ollama")).
Qed.

Lemma run_inv argv b : run_spec argv b (run argv b).
Proof.
  destruct (Nat.lt_ge_cases (length argv) 3) as [Hlt | Hge].
  - unfold run. rewrite main_too_few by assumption.
    now apply run_usage.
  - destruct argv as [|prog [|cmd [|a rest]]]; simpl in Hge; try lia.
    unfold run. rewrite main_dispatch.
    destruct (str_eq (lower unicode_lower cmd) (lit "ollama")) eqn:Ecmd.
    + apply str_eq_true_iff in Ecmd.
      destruct (chat (mk_request default_model
                        [mk_message (lit "user")
                           (join (lit " ") (a :: rest))]) b)
        as [[c | [[m | e] | s]] b'] eqn:Echat.
      * destruct (stdout_accepts c) eqn:A.
        -- rewrite (ollama_chat_Returns _ _ (initial_world b) c b')
             by assumption.
           eapply run_reply; eauto.
        -- rewrite (ollama_chat_Returns_refused _ _ (initial_world b) c b')
             by assumption.
           eapply run_reply_refused; eauto.
      * rewrite (ollama_chat_Raises_Exception _ _ (initial_world b) m b')
          by exact Echat.
        eapply run_error; eauto.
      * rewrite (ollama_chat_Raises_unprintable _ _ (initial_world b) e b')
          by exact Echat.
        eapply run_error_unprintable; eauto.
      * rewrite (ollama_chat_Raises_BaseException _ _ (initial_world b) s b')
          by exact Echat.
        eapply run_escapes; eauto.
    + apply str_eq_false_iff in Ecmd.
      eapply run_unknown; eauto.
Qed.

(** Case analysis on an invocation, through [run_inv]. *)
Ltac run_cases argv b :=
  let r := fresh "r" in
  let Hr := fresh "Hr" in
  generalize (run_inv argv b); generalize (run argv b); intros r Hr;
  destruct Hr;
  repeat match goal with
         | H : _ :: _ = _ :: _ |- _ => inversion H; subst; clear H
         end;
  cbn [fst snd stdout stderr calls backend length] in *.

Lemma ollama_chat_calls prompt_text model_id w :
  calls (snd (ollama_chat prompt_text model_id w)) =
    calls w ++
      [(mk_request model_id [mk_message (lit "user") prompt_text],
        fst (chat (mk_request model_id
                     [mk_message (lit "user") prompt_text])
               (backend w)))].
Proof.
  rewrite ollama_chat_after_call. unfold after_call.
  destruct (fst (chat (mk_request model_id
                         [mk_message (lit "user") prompt_text])
                   (backend w)))
    as [c | [[m | e] | s]]; try reflexivity.
  now destruct (stdout_accepts c).
Qed.

(** [main] looks at the command only through [lower]. *)
Lemma run_depends_on_lower prog cmd1 cmd2 rest b :
  lower unicode_lower cmd1 = lower unicode_lower cmd2 ->
  run (prog :: cmd1 :: rest) b = run (prog :: cmd2 :: rest) b.
Proof.
  intros E. destruct rest as [|a rest]; [reflexivity|].
  unfold run. now rewrite !main_dispatch, E.
Qed.

Lemma ollama_takes_chat_path prog cmd a rest b :
  lower unicode_lower cmd = lit "ollama" ->
  takes_chat_path (prog :: cmd :: a :: rest) b
    (join (lit " ") (a :: rest)) default_model.
Proof.
  intros E. unfold takes_chat_path, run.
  rewrite main_dispatch.
  apply str_eq_true_iff in E. rewrite E.
  rewrite ollama_chat_calls. cbn. eauto.
Qed.

(** [after_call] on the streams and the result: the world counts only
    through what it already holds. *)
Lemma after_call_frame prompt_text model_id w o b' :
  let fresh := after_call prompt_text model_id
                 (initial_world (backend w)) o b' in
  fst (after_call prompt_text model_id w o b') = fst fresh /\
  stdout (snd (after_call prompt_text model_id w o b')) =
    stdout w ++ stdout (snd fresh) /\
  stderr (snd (after_call prompt_text model_id w o b')) =
    stderr w ++ stderr (snd fresh) /\
  calls (snd (after_call prompt_text model_id w o b')) =
    calls w ++ calls (snd fresh) /\
  backend (snd (after_call prompt_text model_id w o b')) =
    backend (snd fresh).
Proof.
  unfold after_call.
  destruct o as [c | [[m | e] | s]]; try destruct (stdout_accepts c);
    cbn; now rewrite ?app_nil_r.
Qed.

(** ** The properties of the program *)

(** C1, amended. An invocation whose first argument lowercases to
    [ollama] and whose call of the backend returns a response of content
    [c], every character of which standard output can encode, leaves
    exactly [c] and one newline on standard output and nothing on
    standard error. *)
Theorem success_prints_reply prog cmd rest b req c :
  lower unicode_lower cmd = lit "ollama" ->
  In (req, Returns c) (calls (snd (run (prog :: cmd :: rest) b))) ->
  stdout_accepts c = true ->
  stdout (snd (run (prog :: cmd :: rest) b)) = c ++ nl /\
  stderr (snd (run (prog :: cmd :: rest) b)) = [].
Proof.
  intros _. run_cases (prog :: cmd :: rest) b; intros Hin A;
    simpl in Hin; try contradiction;
    destruct Hin as [Hin | []]; inversion Hin; subst.
  - now split.
  - congruence.
Qed.


(** C3. With zero or one argument after the program name the
    invocation leaves nothing on standard output, a usage message on
    standard error, calls the backend not at all and returns
    normally. *)
Theorem too_few_arguments prog args b :
  length args < 2 ->
  stdout (snd (run (prog :: args) b)) = [] /\
  stderr (snd (run (prog :: args) b)) =
    lit "Usage: ai_worker.py ollama <prompt_text>" ++ nl /\
  calls (snd (run (prog :: args) b)) = [] /\
  fst (run (prog :: args) b) = Normal tt.
Proof.
  intros H. unfold run. rewrite main_too_few by (simpl; lia).
  now repeat split.
Qed.

(** C4. With at least two arguments of which the first, lowercased, is
    not [ollama], the invocation leaves nothing on standard output, the
    unknown-command message on standard error, calls the backend not at
    all and returns normally. *)
Theorem unknown_command prog cmd a rest b :
  lower unicode_lower cmd <> lit "ollama" ->
  stdout (snd (run (prog :: cmd :: a :: rest) b)) = [] /\
  stderr (snd (run (prog :: cmd :: a :: rest) b)) =
    lit "Unknown command. Use: ai_worker.py ollama <prompt_text>" ++ nl /\
  calls (snd (run (prog :: cmd :: a :: rest) b)) = [] /\
  fst (run (prog :: cmd :: a :: rest) b) = Normal tt.
Proof.
  intros H. unfold run. rewrite main_dispatch.
  apply str_eq_false_iff in H. rewrite H.
  now repeat split.
Qed.

(** C5. With at least two arguments of which the first lowercases to
    [ollama], the one prompt submitted to the backend is the arguments
    after the first joined by single spaces: the second argument,
    then a space and the argument for each later one, every argument
    unchanged. *)
Theorem prompt_is_joined_arguments prog cmd a rest b :
  lower unicode_lower cmd = lit "ollama" ->
  takes_chat_path (prog :: cmd :: a :: rest) b
    (join (lit " ") (a :: rest)) default_model /\
  join (lit " ") (a :: rest) = a ++ flat_map (fun x => lit " " ++ x) rest.
Proof.
  intros E. split.
  - now apply ollama_takes_chat_path.
  - apply join_cons.
Qed.

(** C6, amended. Two argument lists of at least two arguments that
    differ in the first argument only, both first arguments
    lowercasing to [ollama], take the chat path with the same prompt
    and model and run alike; and [OLLAMA], [Ollama] and [ollama] as
    first argument run alike whatever follows. *)
Theorem case_insensitive_dispatch :
  (forall prog cmd1 cmd2 a rest b,
      lower unicode_lower cmd1 = lit "ollama" ->
      lower unicode_lower cmd2 = lit "ollama" ->
      takes_chat_path (prog :: cmd1 :: a :: rest) b
        (join (lit " ") (a :: rest)) default_model /\
      takes_chat_path (prog :: cmd2 :: a :: rest) b
        (join (lit " ") (a :: rest)) default_model /\
      run (prog :: cmd1 :: a :: rest) b =
        run (prog :: cmd2 :: a :: rest) b) /\
  (forall prog rest b,
      run (prog :: lit "OLLAMA" :: rest) b =
        run (prog :: lit "ollama" :: rest) b /\
      run (prog :: lit "Ollama" :: rest) b =
        run (prog :: lit "ollama" :: rest) b).
Proof.
  split.
  - intros prog cmd1 cmd2 a rest b E1 E2. repeat split.
    + now apply ollama_takes_chat_path.
    + now apply ollama_takes_chat_path.
    + apply run_depends_on_lower. congruence.
  - intros prog rest b. split; now apply run_depends_on_lower.
Qed.

(** C7. The chat operation makes one call, whose request carries the
    given model and a single message of role ["user"] and of content
    the prompt; dispatched from the command line, the model is
    ["deepseek-r1:1.5b"]. *)
Theorem chat_submits_single_user_message :
  (forall prompt_text model_id w,
      calls (snd (ollama_chat prompt_text model_id w)) =
        calls w ++
          [(mk_request model_id [mk_message (lit "user") prompt_text],
            fst (chat (mk_request model_id
                         [mk_message (lit "user") prompt_text])
                   (backend w)))]) /\
  (forall prog cmd a rest b,
      lower unicode_lower cmd = lit "ollama" ->
      exists prompt_text,
        takes_chat_path (prog :: cmd :: a :: rest) b
          prompt_text (lit "deepseek-r1:1.5b")).
Proof.
  split.
  - apply ollama_chat_calls.
  - intros prog cmd a rest b E.
    exists (join (lit " ") (a :: rest)).
    now apply ollama_takes_chat_path.
Qed.

(** C8. Whatever the arguments and the backend, standard output ends
    up either with the reply the backend returned and one newline,
    standard error then being empty, or with nothing; so no usage,
    unknown-command or backend-error text is on standard output. *)
Theorem stdout_reply_or_nothing argv b :
  (exists req c,
      calls (snd (run argv b)) = [(req, Returns c)] /\
      stdout (snd (run argv b)) = c ++ nl /\
      stderr (snd (run argv b)) = []) \/
  stdout (snd (run argv b)) = [].
Proof.
  run_cases argv b; try (now right).
  left. eauto.
Qed.

(** C9. Against a deterministic backend, two invocations with the same
    arguments leave the same text on standard output and on standard
    error, in whatever state each finds the service. *)
Theorem repeated_runs_agree argv b1 b2 :
  deterministic ->
  stdout (snd (run argv b1)) = stdout (snd (run argv b2)) /\
  stderr (snd (run argv b1)) = stderr (snd (run argv b2)).
Proof.
  intros Hdet.
  destruct (Nat.lt_ge_cases (length argv) 3) as [Hlt | Hge].
  - unfold run. now rewrite !main_too_few by assumption.
  - destruct argv as [|prog [|cmd [|a rest]]]; simpl in Hge; try lia.
    unfold run. rewrite !main_dispatch.
    destruct (str_eq (lower unicode_lower cmd) (lit "ollama"));
      [|now split].
    rewrite !ollama_chat_after_call. cbn [backend initial_world].
    rewrite (Hdet _ b1 b2). unfold after_call.
    destruct (fst (chat (mk_request default_model
                           [mk_message (lit "user")
                              (join (lit " ") (a :: rest))]) b2))
      as [c | [[m | e] | s]]; try (now split).
    now destruct (stdout_accepts c).
Qed.

(** C10. The usage message is exactly
    ["Usage: ai_worker.py ollama <prompt_text>"] and a newline. *)
Theorem usage_message_text argv b :
  length argv < 3 ->
  stderr (snd (run argv b)) =
    lit "Usage: ai_worker.py ollama <prompt_text>" ++ nl.
Proof.
  intros H. unfold run. now rewrite main_too_few.
Qed.

(** ** Further properties of [ollama_chat] and [main] *)

Lemma usage_not_empty :
  lit "Usage: ai_worker.py ollama <prompt_text>" ++ nl <> [].
Proof. cbn. discriminate. Qed.

Lemma unknown_not_empty :
  lit "Unknown command. Use: ai_worker.py ollama <prompt_text>" ++ nl <> [].
Proof. cbn. discriminate. Qed.

Lemma error_not_empty (m : pystr) :
  lit "Error in ollama_chat: " ++ m ++ nl <> [].
Proof. cbn. discriminate. Qed.

Lemma reply_not_empty (c : pystr) : c ++ nl <> [].
Proof. destruct c; cbn; discriminate. Qed.

Lemma Py_TOLOWER_ascii (c : codepoint) :
  (c < 128)%N -> (Py_TOLOWER c < 128)%N.
Proof.
  unfold Py_TOLOWER. intros H.
  destruct (N.leb 65 c && N.leb c 90)%bool eqn:E; [|exact H].
  apply andb_true_iff in E as [_ E]. apply N.leb_le in E. lia.
Qed.

Lemma Py_TOLOWER_idempotent (c : codepoint) :
  Py_TOLOWER (Py_TOLOWER c) = Py_TOLOWER c.
Proof.
  unfold Py_TOLOWER.
  destruct (N.leb 65 c && N.leb c 90)%bool eqn:E; [|now rewrite E].
  apply andb_true_iff in E as [E1 E2].
  apply N.leb_le in E1, E2.
  destruct (N.leb 65 (c + 32) && N.leb (c + 32) 90)%bool eqn:E';
    [|reflexivity].
  apply andb_true_iff in E' as [_ E']. apply N.leb_le in E'. lia.
Qed.

Lemma lower_from_ascii (s : pystr) (i : nat) (rest : pystr) :
  Forall (fun c => (c < 128)%N) rest ->
  lower_from unicode_lower s i rest = List.map Py_TOLOWER rest.
Proof.
  intros H. revert i. induction H as [|c rest Hc _ IH]; intros i; cbn.
  - reflexivity.
  - unfold lower_char. apply N.ltb_lt in Hc. rewrite Hc. cbn.
    now rewrite IH.
Qed.

Lemma lower_ascii (s : pystr) :
  Forall (fun c => (c < 128)%N) s ->
  lower unicode_lower s = List.map Py_TOLOWER s.
Proof. apply lower_from_ascii. Qed.

(** X1. An exception of the backend call that is no [Exception] is not
    caught: nothing is written to either stream and it leaves [main]. *)
Theorem base_exception_propagates argv b req s :
  In (req, Raises (PyBaseException s)) (calls (snd (run argv b))) ->
  stdout (snd (run argv b)) = [] /\
  stderr (snd (run argv b)) = [] /\
  fst (run argv b) = Propagated (PyBaseException s).
Proof.
  run_cases argv b; intros Hin;
    simpl in Hin; try contradiction;
    destruct Hin as [Hin | []]; inversion Hin; subst.
  now repeat split.
Qed.

(** X2. An invocation calls the backend at most once, and it calls it
    exactly when [sys.argv] has a program name, a command that
    lowercases to [ollama] and at least one more argument. *)
Theorem one_call_iff_chat_path argv b :
  length (calls (snd (run argv b))) <= 1 /\
  (calls (snd (run argv b)) <> [] <->
   exists prog cmd a rest,
     argv = prog :: cmd :: a :: rest /\
     lower unicode_lower cmd = lit "ollama").
Proof.
  generalize (run_inv argv b); generalize (run argv b); intros r Hr.
  destruct Hr; cbn [fst snd calls length]; (split; [lia|]).
  - split; [congruence|].
    intros (prog & cmd & a & rest & -> & _). cbn in *. lia.
  - split; [congruence|].
    intros (prog' & cmd' & a' & rest' & E & Hcmd). subst argv.
    inversion E; subst. contradiction.
  - split; [eauto 6 | discriminate].
  - split; [eauto 6 | discriminate].
  - split; [eauto 6 | discriminate].
  - split; [eauto 6 | discriminate].
  - split; [eauto 6 | discriminate].
Qed.

(** X3. [main] has written nothing to either stream exactly when an
    exception leaves it; whenever [main] returns normally it has written
    to one of them. *)
Theorem silent_iff_exception_escapes argv b :
  (stdout (snd (run argv b)) = [] /\ stderr (snd (run argv b)) = []) <->
  (exists e, fst (run argv b) = Propagated e).
Proof.
  run_cases argv b.
  - split; [intros [_ Hs]; now apply usage_not_empty in Hs
           | intros [e0 Hs]; discriminate].
  - split; [intros [_ Hs]; now apply unknown_not_empty in Hs
           | intros [e0 Hs]; discriminate].
  - split; [intros [Hs _]; now apply reply_not_empty in Hs
           | intros [e0 Hs]; discriminate].
  - split; [intros [_ Hs]; now apply error_not_empty in Hs
           | intros [e0 Hs]; discriminate].
  - split; [intros [_ Hs]; now apply error_not_empty in Hs
           | intros [e0 Hs]; discriminate].
  - split; [eauto | auto].
  - split; [eauto | auto].
Qed.

(** X4. A reply that standard output cannot encode is reported like an
    error of the backend: [print] raises inside the [try], so standard
    output stays empty, standard error gets ["Error in ollama_chat: "]
    with the text of the encoding error and a newline, and [main]
    returns normally. *)
Theorem unencodable_reply_reported argv b req c :
  In (req, Returns c) (calls (snd (run argv b))) ->
  stdout_accepts c = false ->
  stdout (snd (run argv b)) = [] /\
  stderr (snd (run argv b)) =
    lit "Error in ollama_chat: " ++ stdout_codec_error c ++ nl /\
  fst (run argv b) = Normal tt.
Proof.
  run_cases argv b; intros Hin A;
    simpl in Hin; try contradiction;
    destruct Hin as [Hin | []]; inversion Hin; subst.
  - congruence.
  - now repeat split.
Qed.

(** X5. [main] only appends: called in a process that has already
    written text and made calls, it keeps all of that and adds what a
    fresh invocation against the same service state produces, with the
    same result. *)
Theorem main_appends argv w :
  fst (main argv w) = fst (run argv (backend w)) /\
  stdout (snd (main argv w)) =
    stdout w ++ stdout (snd (run argv (backend w))) /\
  stderr (snd (main argv w)) =
    stderr w ++ stderr (snd (run argv (backend w))) /\
  calls (snd (main argv w)) =
    calls w ++ calls (snd (run argv (backend w))) /\
  backend (snd (main argv w)) = backend (snd (run argv (backend w))).
Proof.
  unfold run.
  destruct (Nat.lt_ge_cases (length argv) 3) as [Hlt | Hge].
  - rewrite !main_too_few by assumption. cbn.
    now rewrite !app_nil_r.
  - destruct argv as [|prog [|cmd [|a rest]]]; simpl in Hge; try lia.
    rewrite !main_dispatch.
    destruct (str_eq (lower unicode_lower cmd) (lit "ollama"));
      [|cbn; now rewrite !app_nil_r].
    rewrite !ollama_chat_after_call. cbn [backend initial_world].
    apply after_call_frame.
Qed.

(** X6. [sys.argv[0]] is never read: the name under which the script is
    started does not change what it does. *)
Theorem program_name_irrelevant prog1 prog2 args b :
  run (prog1 :: args) b = run (prog2 :: args) b.
Proof.
  destruct args as [|cmd [|a rest]]; [reflexivity | reflexivity |].
  unfold run. now rewrite !main_dispatch.
Qed.

(** X7. The prompt arguments count only through their join: two
    invocations with the same command whose remaining arguments join to
    the same text run alike, so a prompt quoted as one argument and the
    same prompt given word by word are not told apart. *)
Theorem argument_boundaries_irrelevant prog cmd a1 rest1 a2 rest2 b :
  join (lit " ") (a1 :: rest1) = join (lit " ") (a2 :: rest2) ->
  run (prog :: cmd :: a1 :: rest1) b = run (prog :: cmd :: a2 :: rest2) b.
Proof.
  intros E. unfold run. now rewrite !main_dispatch, E.
Qed.

(** X8. [main] returns normally unless the call of the backend raises
    an exception that is no [Exception], or an [Exception] whose
    [str()] raises.  So the length check keeps [sys.argv[1]] in range
    for every [sys.argv], the empty one included, and neither an
    [Exception] of the call whose [str()] returns nor a reply that
    standard output refuses makes [main] fail. *)
Theorem main_returns_normally argv b :
  (forall req o,
      In (req, o) (calls (snd (run argv b))) ->
      (exists c, o = Returns c) \/
      (exists m, o = Raises (PyException (Str m)))) ->
  fst (run argv b) = Normal tt.
Proof.
  run_cases argv b; intros Hcalls; try reflexivity.
  - destruct (Hcalls req (Raises (PyException (StrRaises e))))
      as [[c0 Hc] | [m0 Hm]]; [now left | discriminate | discriminate].
  - destruct (Hcalls req (Raises (PyBaseException s)))
      as [[c0 Hc] | [m0 Hm]]; [now left | discriminate | discriminate].
Qed.

(** X9. For a command made of ASCII characters the Unicode table plays
    no part: [lower] maps [A]..[Z] to [a]..[z] character by character,
    and the invocation runs as it does with the command already in
    lower case, whatever the command is. *)
Theorem ascii_command_case_insensitive prog cmd rest b :
  Forall (fun c => (c < 128)%N) cmd ->
  lower unicode_lower cmd = List.map Py_TOLOWER cmd /\
  run (prog :: cmd :: rest) b =
    run (prog :: List.map Py_TOLOWER cmd :: rest) b.
Proof.
  intros H. split; [now apply lower_ascii|].
  apply run_depends_on_lower.
  rewrite !lower_ascii; trivial.
  - rewrite List.map_map. apply List.map_ext.
    intros c. now rewrite Py_TOLOWER_idempotent.
  - apply Forall_map. revert H. apply Forall_impl.
    intros c. apply Py_TOLOWER_ascii.
Qed.

End Program.


Arguments stdout {backend_state} w.
Arguments stderr {backend_state} w.
Arguments calls {backend_state} w.
Arguments backend {backend_state} w.
Arguments mk_world {backend_state} stdout stderr calls backend.
Arguments Normal {A} a.
Arguments Propagated {A} e.
Arguments ollama_chat stdout_codec stdout_codec_error {backend_state} chat
  prompt_text model w.
Arguments main unicode_lower stdout_codec stdout_codec_error {backend_state}
  chat argv w.
Arguments run unicode_lower stdout_codec stdout_codec_error {backend_state}
  chat argv b.
Arguments initial_world {backend_state} b.
Arguments takes_chat_path unicode_lower stdout_codec stdout_codec_error
  {backend_state} chat argv b prompt model_id.
Arguments deterministic {backend_state} chat.
Arguments dispatch_on_every_argument_list unicode_lower stdout_codec
  stdout_codec_error {backend_state} chat.
Arguments every_reply_is_printed unicode_lower stdout_codec
  stdout_codec_error {backend_state} chat.

(** ** Concrete runs *)

(** Invocations with the stand-in Unicode table and standard output in
    UTF-8. *)
Abbreviation run_utf8 :=
  (run unicode_lower_id codec_utf8 codec_utf8_error).
Abbreviation takes_chat_path_utf8 :=
  (takes_chat_path unicode_lower_id codec_utf8 codec_utf8_error).

(** The reply ["4"] to [ollama 2+2?]. *)
Lemma success_prints_reply_witness :
  let argv := [lit "ai_worker.py"; lit "ollama"; lit "2+2?"] in
  let req := mk_request (lit "deepseek-r1:1.5b")
               [mk_message (lit "user") (lit "2+2?")] in
  lower unicode_lower_id (lit "ollama") = lit "ollama" /\
  In (req, Returns (lit "4"))
     (calls (snd (run_utf8
                    chat_four argv tt))) /\
  stdout_accepts codec_utf8 (lit "4") = true /\
  stdout (snd (run_utf8
                 chat_four argv tt)) = lit "4" ++ nl /\
  stderr (snd (run_utf8
                 chat_four argv tt)) = [].
Proof.
  intros argv req.
  assert (Hcmd : lower unicode_lower_id (lit "ollama") = lit "ollama")
    by reflexivity.
  assert (Hin : In (req, Returns (lit "4"))
                  (calls (snd (run_utf8 chat_four argv tt))))
    by (left; reflexivity).
  assert (Hok : stdout_accepts codec_utf8 (lit "4") = true)
    by reflexivity.
  split; [exact Hcmd | split; [exact Hin | split; [exact Hok |]]].
  exact (success_prints_reply unicode_lower_id
          codec_utf8 codec_utf8_error
           unit chat_four
           (lit "ai_worker.py") (lit "ollama") [lit "2+2?"] tt req (lit "4")
           Hcmd Hin Hok).
Defined.

(** A reply that standard output cannot encode: a lone surrogate under
    UTF-8, an e-acute under ASCII.  The call returns it, [print] raises,
    and the text of the encoding error goes to standard error. *)
Lemma unencodable_reply_not_printed :
  let argv := [lit "ai_worker.py"; lit "ollama"; lit "hi"] in
  let req := mk_request (lit "deepseek-r1:1.5b")
               [mk_message (lit "user") (lit "hi")] in
  lower unicode_lower_id (lit "ollama") = lit "ollama" /\
  In (req, Returns [55296%N])
     (calls (snd (run_utf8
                    (chat_says [55296%N]) argv tt))) /\
  run_utf8
    (chat_says [55296%N]) argv tt =
    (Normal tt,
     mk_world []
       (lit "Error in ollama_chat: " ++ codec_utf8_error [55296%N] ++ nl)
       [(req, Returns [55296%N])] tt) /\
  In (req, Returns [233%N])
     (calls (snd (run unicode_lower_id codec_ascii codec_ascii_error
                    (chat_says [233%N]) argv tt))) /\
  run unicode_lower_id codec_ascii codec_ascii_error
    (chat_says [233%N]) argv tt =
    (Normal tt,
     mk_world []
       (lit "Error in ollama_chat: " ++ codec_ascii_error [233%N] ++ nl)
       [(req, Returns [233%N])] tt) /\
  ~ every_reply_is_printed unicode_lower_id codec_utf8 codec_utf8_error
      (chat_says [55296%N]).
Proof.
  intros argv req.
  repeat split; try reflexivity; try (left; reflexivity).
  intros H.
  destruct (H (lit "ai_worker.py") (lit "ollama") [lit "hi"] tt req
              [55296%N] eq_refl (or_introl eq_refl)) as [Hout _].
  vm_compute in Hout. discriminate Hout.
Qed.


(** The command alone. *)
Lemma too_few_arguments_witness :
  let argv := [lit "ai_worker.py"; lit "ollama"] in
  length [lit "ollama"] < 2 /\
  stdout (snd (run_utf8 chat_four argv tt)) = [] /\
  stderr (snd (run_utf8 chat_four argv tt)) =
    lit "Usage: ai_worker.py ollama <prompt_text>" ++ nl /\
  calls (snd (run_utf8 chat_four argv tt)) = [] /\
  fst (run_utf8 chat_four argv tt) = Normal tt.
Proof.
  intros argv.
  assert (H : length [lit "ollama"] < 2) by (simpl; lia).
  split; [exact H |].
  exact (too_few_arguments unicode_lower_id
          codec_utf8 codec_utf8_error
           unit chat_four
           (lit "ai_worker.py") [lit "ollama"] tt H).
Defined.

(** The command [chat]. *)
Lemma unknown_command_witness :
  let argv := [lit "ai_worker.py"; lit "chat"; lit "hi"] in
  lower unicode_lower_id (lit "chat") <> lit "ollama" /\
  stdout (snd (run_utf8 chat_four argv tt)) = [] /\
  stderr (snd (run_utf8 chat_four argv tt)) =
    lit "Unknown command. Use: ai_worker.py ollama <prompt_text>" ++ nl /\
  calls (snd (run_utf8 chat_four argv tt)) = [] /\
  fst (run_utf8 chat_four argv tt) = Normal tt.
Proof.
  intros argv.
  assert (H : lower unicode_lower_id (lit "chat") <> lit "ollama")
    by (vm_compute; discriminate).
  split; [exact H |].
  exact (unknown_command unicode_lower_id
          codec_utf8 codec_utf8_error
           unit chat_four
           (lit "ai_worker.py") (lit "chat") (lit "hi") [] tt H).
Defined.

(** The prompt of [Ollama what is 2+2?]. *)
Lemma prompt_is_joined_arguments_witness :
  let argv := [lit "ai_worker.py"; lit "Ollama";
               lit "what"; lit "is"; lit "2+2?"] in
  lower unicode_lower_id (lit "Ollama") = lit "ollama" /\
  join (lit " ") [lit "what"; lit "is"; lit "2+2?"] = lit "what is 2+2?" /\
  takes_chat_path_utf8 chat_echo argv 0
    (join (lit " ") [lit "what"; lit "is"; lit "2+2?"]) default_model.
Proof.
  intros argv.
  assert (H : lower unicode_lower_id (lit "Ollama") = lit "ollama")
    by reflexivity.
  split; [exact H | split; [reflexivity |]].
  exact (proj1 (prompt_is_joined_arguments unicode_lower_id
                 codec_utf8 codec_utf8_error
           nat chat_echo
                  (lit "ai_worker.py") (lit "Ollama") (lit "what")
                  [lit "is"; lit "2+2?"] 0 H)).
Defined.

(** [OLLAMA] and [Ollama] in front of a prompt. *)
Lemma case_insensitive_dispatch_witness :
  lower unicode_lower_id (lit "OLLAMA") = lit "ollama" /\
  lower unicode_lower_id (lit "Ollama") = lit "ollama" /\
  run_utf8 chat_echo
    [lit "ai_worker.py"; lit "OLLAMA"; lit "2+2?"] 0 =
  run_utf8 chat_echo
    [lit "ai_worker.py"; lit "Ollama"; lit "2+2?"] 0.
Proof.
  assert (H1 : lower unicode_lower_id (lit "OLLAMA") = lit "ollama")
    by reflexivity.
  assert (H2 : lower unicode_lower_id (lit "Ollama") = lit "ollama")
    by reflexivity.
  split; [exact H1 | split; [exact H2 |]].
  exact (proj2 (proj2
           (proj1 (case_insensitive_dispatch unicode_lower_id
                    codec_utf8 codec_utf8_error
           nat chat_echo)
              (lit "ai_worker.py") (lit "OLLAMA") (lit "Ollama")
              (lit "2+2?") [] 0 H1 H2))).
Defined.

(** With the command as the only argument there is no prompt: [OLLAMA]
    and [ollama] both lowercase to [ollama], and both runs end in the
    usage message without a request. *)
Lemma dispatch_fails_without_prompt :
  lower unicode_lower_id (lit "OLLAMA") = lit "ollama" /\
  lower unicode_lower_id (lit "ollama") = lit "ollama" /\
  run_utf8 chat_four [lit "ai_worker.py"; lit "OLLAMA"] tt =
    (Normal tt,
     mk_world [] (lit "Usage: ai_worker.py ollama <prompt_text>" ++ nl)
       [] tt) /\
  run_utf8 chat_four [lit "ai_worker.py"; lit "ollama"] tt =
    (Normal tt,
     mk_world [] (lit "Usage: ai_worker.py ollama <prompt_text>" ++ nl)
       [] tt) /\
  (forall prompt model_id,
      ~ takes_chat_path_utf8 chat_four
          [lit "ai_worker.py"; lit "OLLAMA"] tt prompt model_id) /\
  ~ dispatch_on_every_argument_list unicode_lower_id codec_utf8
      codec_utf8_error chat_four.
Proof.
  assert (Hno : forall prompt model_id,
             ~ takes_chat_path_utf8 chat_four
                 [lit "ai_worker.py"; lit "OLLAMA"] tt prompt model_id).
  { intros prompt model_id [o Ho]. vm_compute in Ho. discriminate Ho. }
  repeat split; try reflexivity; [exact Hno |].
  intros H.
  destruct (H (lit "ai_worker.py") (lit "OLLAMA") (lit "ollama") [] tt
              eq_refl eq_refl) as (prompt & model_id & Hpath & _).
  exact (Hno prompt model_id Hpath).
Qed.

(** The model named on the command-line path. *)
Lemma chat_submits_single_user_message_witness :
  lower unicode_lower_id (lit "ollama") = lit "ollama" /\
  exists prompt_text,
    takes_chat_path_utf8 chat_four
      [lit "ai_worker.py"; lit "ollama"; lit "hi"] tt
      prompt_text (lit "deepseek-r1:1.5b").
Proof.
  assert (H : lower unicode_lower_id (lit "ollama") = lit "ollama")
    by reflexivity.
  split; [exact H |].
  exact (proj2 (chat_submits_single_user_message unicode_lower_id
                 codec_utf8 codec_utf8_error
           unit chat_four)
           (lit "ai_worker.py") (lit "ollama") (lit "hi") [] tt H).
Defined.

(** Two runs in a row against the counting echo service: the second
    finds the service in the state the first left. *)
Lemma repeated_runs_agree_witness :
  let argv := [lit "ai_worker.py"; lit "ollama"; lit "hi"] in
  let b1 := 0 in
  let b2 := backend (snd (run_utf8 chat_echo argv b1)) in
  deterministic chat_echo /\
  b2 <> b1 /\
  stdout (snd (run_utf8 chat_echo argv b1)) =
    stdout (snd (run_utf8 chat_echo argv b2)) /\
  stderr (snd (run_utf8 chat_echo argv b1)) =
    stderr (snd (run_utf8 chat_echo argv b2)).
Proof.
  intros argv b1 b2.
  assert (H : deterministic chat_echo) by (intros req s1 s2; reflexivity).
  split; [exact H | split; [vm_compute; discriminate |]].
  exact (repeated_runs_agree unicode_lower_id
          codec_utf8 codec_utf8_error
           nat chat_echo argv b1 b2 H).
Defined.

(** Determinism of the service is needed: the moody service answers the
    second run differently. *)
Example moody_service_differs :
  let argv := [lit "ai_worker.py"; lit "ollama"; lit "hi"] in
  stdout (snd (run_utf8 chat_moody argv 0)) = lit "yes" ++ nl /\
  stdout (snd (run_utf8 chat_moody argv 1)) = lit "no" ++ nl.
Proof. split; reflexivity. Qed.

(** An interrupt is no [Exception]: it leaves [main] and both streams
    stay empty. *)
Example interrupt_propagates :
  run_utf8 chat_interrupted
    [lit "ai_worker.py"; lit "ollama"; lit "hi"] tt =
  (Propagated (PyBaseException (Str [])),
   mk_world [] []
     [(mk_request default_model [mk_message (lit "user") (lit "hi")],
       Raises (PyBaseException (Str [])))] tt).
Proof. reflexivity. Qed.

(** No argument at all. *)
Lemma usage_message_text_witness :
  length [lit "ai_worker.py"] < 3 /\
  stderr (snd (run_utf8 chat_four [lit "ai_worker.py"] tt)) =
    lit "Usage: ai_worker.py ollama <prompt_text>" ++ nl.
Proof.
  assert (H : length [lit "ai_worker.py"] < 3) by (simpl; lia).
  split; [exact H |].
  exact (usage_message_text unicode_lower_id
          codec_utf8 codec_utf8_error
           unit chat_four
           [lit "ai_worker.py"] tt H).
Defined.

(** An interrupted call of [ollama hi]. *)
Lemma base_exception_propagates_witness :
  let argv := [lit "ai_worker.py"; lit "ollama"; lit "hi"] in
  let req := mk_request (lit "deepseek-r1:1.5b")
               [mk_message (lit "user") (lit "hi")] in
  In (req, Raises (PyBaseException (Str [])))
     (calls (snd (run_utf8 chat_interrupted argv tt))) /\
  stdout (snd (run_utf8 chat_interrupted argv tt)) = [] /\
  stderr (snd (run_utf8 chat_interrupted argv tt)) = [] /\
  fst (run_utf8 chat_interrupted argv tt) =
    Propagated (PyBaseException (Str [])).
Proof.
  intros argv req.
  assert (Hin : In (req, Raises (PyBaseException (Str [])))
                  (calls (snd (run_utf8 chat_interrupted
                                 argv tt))))
    by (left; reflexivity).
  split; [exact Hin |].
  exact (base_exception_propagates unicode_lower_id
          codec_utf8 codec_utf8_error
           unit chat_interrupted
           argv tt req (Str []) Hin).
Defined.

(** The prompt quoted as one argument and given word by word. *)
Lemma argument_boundaries_irrelevant_witness :
  join (lit " ") [lit "what is 2+2?"] =
    join (lit " ") [lit "what"; lit "is"; lit "2+2?"] /\
  run_utf8 chat_echo
    [lit "ai_worker.py"; lit "ollama"; lit "what is 2+2?"] 0 =
  run_utf8 chat_echo
    [lit "ai_worker.py"; lit "ollama"; lit "what"; lit "is"; lit "2+2?"] 0.
Proof.
  assert (H : join (lit " ") [lit "what is 2+2?"] =
              join (lit " ") [lit "what"; lit "is"; lit "2+2?"])
    by reflexivity.
  split; [exact H |].
  exact (argument_boundaries_irrelevant unicode_lower_id
          codec_utf8 codec_utf8_error
           nat chat_echo
           (lit "ai_worker.py") (lit "ollama")
           (lit "what is 2+2?") [] (lit "what") [lit "is"; lit "2+2?"] 0 H).
Defined.

(** The unknown command [Chat] runs as [chat] does. *)
Lemma ascii_command_case_insensitive_witness :
  Forall (fun c => (c < 128)%N) (lit "Chat") /\
  lower unicode_lower_id (lit "Chat") = lit "chat" /\
  run_utf8 chat_four
    [lit "ai_worker.py"; lit "Chat"; lit "hi"] tt =
  run_utf8 chat_four
    [lit "ai_worker.py"; lit "chat"; lit "hi"] tt.
Proof.
  assert (H : Forall (fun c => (c < 128)%N) (lit "Chat"))
    by (repeat (constructor; [reflexivity |]); constructor).
  split; [exact H |].
  exact (ascii_command_case_insensitive unicode_lower_id
          codec_utf8 codec_utf8_error
           unit chat_four
           (lit "ai_worker.py") (lit "Chat") [lit "hi"] tt H).
Defined.

(** A lone surrogate as the reply, standard output in UTF-8. *)
Lemma unencodable_reply_reported_witness :
  let argv := [lit "ai_worker.py"; lit "ollama"; lit "hi"] in
  let req := mk_request (lit "deepseek-r1:1.5b")
               [mk_message (lit "user") (lit "hi")] in
  In (req, Returns [55296%N])
     (calls (snd (run_utf8
                    (chat_says [55296%N]) argv tt))) /\
  stdout_accepts codec_utf8 [55296%N] = false /\
  stdout (snd (run_utf8
                 (chat_says [55296%N]) argv tt)) = [] /\
  stderr (snd (run_utf8
                 (chat_says [55296%N]) argv tt)) =
    lit "Error in ollama_chat: " ++ codec_utf8_error [55296%N] ++ nl /\
  fst (run_utf8
         (chat_says [55296%N]) argv tt) = Normal tt.
Proof.
  intros argv req.
  assert (Hin : In (req, Returns [55296%N])
                  (calls (snd (run_utf8 (chat_says [55296%N])
                                 argv tt))))
    by (left; reflexivity).
  assert (Hno : stdout_accepts codec_utf8 [55296%N] = false)
    by reflexivity.
  split; [exact Hin | split; [exact Hno |]].
  exact (unencodable_reply_reported unicode_lower_id codec_utf8
           codec_utf8_error unit (chat_says [55296%N])
           argv tt req [55296%N] Hin Hno).
Defined.

(** The refused connection: the one call raised an [Exception] whose
    [str()] returns, and [main] returns normally. *)
Lemma main_returns_normally_witness :
  let argv := [lit "ai_worker.py"; lit "ollama"; lit "hi"] in
  (forall req o,
      In (req, o)
         (calls (snd (run_utf8
                        chat_refused argv tt))) ->
      (exists c, o = Returns c) \/
      (exists m, o = Raises (PyException (Str m)))) /\
  fst (run_utf8
         chat_refused argv tt) = Normal tt.
Proof.
  intros argv.
  assert (H : forall req o,
             In (req, o)
                (calls (snd (run_utf8 chat_refused argv tt))) ->
             (exists c, o = Returns c) \/
             (exists m, o = Raises (PyException (Str m)))).
  { intros req o [Hin | []]. inversion Hin; subst. right. eauto. }
  split; [exact H |].
  exact (main_returns_normally unicode_lower_id
          codec_utf8 codec_utf8_error
           unit chat_refused argv tt H).
Defined.

(** An [Exception] whose [__str__] raises [ValueError("bad")]: the
    handler fails before it writes, and the [ValueError] leaves
    [main]. *)
Example unprintable_exception_escapes :
  run_utf8 chat_unprintable
    [lit "ai_worker.py"; lit "ollama"; lit "hi"] tt =
  (Propagated (PyException (Str (lit "bad"))),
   mk_world [] []
     [(mk_request default_model [mk_message (lit "user") (lit "hi")],
       Raises (PyException (StrRaises (PyException (Str (lit "bad"))))))]
     tt).
Proof. reflexivity. Qed.

